(** * http-wake: the HTTP endpoint that wakes the touch-timeout display

    A shallow embedding of [scripts/http-wake.py] and of the parts of
    CPython's [http.server] and [socketserver] that the script runs
    through, followed by the properties of the script.

    The script is effectful Python: it spawns a child process, fills an
    HTTP response, prints on standard error and leaves through
    [sys.exit].  The embedding threads one chronological trace of these
    effects through a small state-and-exception monad. *)

From Stdlib Require Import ZArith List String Ascii Bool Lia DecimalString.
Import ListNotations.

Local Open Scope string_scope.
Local Open Scope Z_scope.

(** The line feed of the Python literals ["...\n"]. *)
Definition LF : string := String "010"%char EmptyString.

(* ===================================================================== *)
(** ** Python values and effects                                          *)
(* ===================================================================== *)

(** The exceptions that travel through the script.  [CalledProcessError]
    and [OSError] derive from [Exception]; [KeyboardInterrupt] and
    [SystemExit] derive from [BaseException] only.  [str_e] is the text
    that [str(e)] gives. *)
Inductive exn : Type :=
| CalledProcessError (returncode : Z) (cmd : list string) (str_e : string)
| OSError (str_e : string)
| KeyboardInterrupt
| SystemExit (code : Z).

(** [isinstance(e, Exception)]. *)
Definition is_Exception (e : exn) : bool :=
  match e with
  | CalledProcessError _ _ _ | OSError _ => true
  | KeyboardInterrupt | SystemExit _ => false
  end.

(** What the operating system does with the child that [subprocess.run]
    starts: the child runs and leaves with a return code (negative when a
    signal ended it), or it cannot be started at all ([Popen] raises
    [OSError], for instance [FileNotFoundError] when the executable is
    not installed).  [descr] is the text CPython gives to the
    [CalledProcessError] of that return code. *)
Inductive spawn_outcome : Type :=
| Exited (returncode : Z) (descr : string)
| LaunchFailed (str_e : string).

(** An operand of Python's [%] on strings.  The library builds some of
    its texts with [format % args]; the embedding keeps the format and
    the operands and does not render them. *)
Inductive operand : Type :=
| Str (s : string)
| Int (z : Z)
| Mod (format : string) (args : list string).

(** What the body of a response is made of: bytes written by the
    handler, or the HTML page that [send_error] renders from
    [error_message_format] for a code and a message [fmt % args]. *)
Inductive chunk : Type :=
| Data (bytes : string)
| ErrorPage (code : Z) (fmt : string) (args : list string).

(** One observable effect.  [SubprocessRun] is the call of
    [subprocess.run]; [SendResponse] stands for the status line together
    with the [Server] and [Date] headers that the library adds to it;
    [SendContentLength c] is the header [Content-Length] of the body
    [c]; [StderrWriteMod format args] is [sys.stderr.write(format %
    args)] and [PrintExc e] is [traceback.print_exc()] while [e] is
    handled. *)
Inductive io : Type :=
| SubprocessRun (argv : list string)
| SendResponse (code : Z)
| SendHeader (keyword value : string)
| SendContentLength (c : chunk)
| EndHeaders
| WfileWrite (c : chunk)
| ShutdownRequest
| SocketOpen
| SocketListen (host : string) (port : Z)
| SocketClose
| StderrWrite (text : string)
| StderrWriteMod (format : string) (args : list operand)
| PrintExc (e : exn).

Definition trace : Type := list io.

(** How a computation ends: with a value, with a raised exception, or
    [Blocked]: still running, waiting in [select] for input beyond the
    observed events. *)
Inductive result (A : Type) : Type :=
| Return (a : A)
| Raise (e : exn)
| Blocked.

Arguments Return {A} a.
Arguments Raise {A} e.
Arguments Blocked {A}.

(** A Python computation: from the effects so far to its end and the
    effects after it. *)
Definition Py (A : Type) : Type := trace -> result A * trace.

Definition ret {A} (a : A) : Py A := fun tr => (Return a, tr).

Definition bind {A B} (m : Py A) (k : A -> Py B) : Py B :=
  fun tr =>
    match m tr with
    | (Return a, tr') => k a tr'
    | (Raise e, tr') => (Raise e, tr')
    | (Blocked, tr') => (Blocked, tr')
    end.

Definition raise {A} (e : exn) : Py A := fun tr => (Raise e, tr).

Definition emit (e : io) : Py unit := fun tr => (Return tt, (tr ++ [e])%list).

(** [try: m  except ...:]: [handler e] is [Some h] when one of the
    [except] clauses matches [e], and [h] is then its body. *)
Definition try_except {A} (m : Py A) (handler : exn -> option (Py A)) : Py A :=
  fun tr =>
    match m tr with
    | (Raise e, tr') =>
        match handler e with
        | Some h => h tr'
        | None => (Raise e, tr')
        end
    | other => other
    end.

Declare Scope py_scope.
Delimit Scope py_scope with py.
Notation "x <- m ;; k" := (bind m (fun x => k))
  (at level 100, m at next level, right associativity) : py_scope.
Notation "m ;; k" := (bind m (fun _ => k))
  (at level 100, right associativity) : py_scope.
Local Open Scope py_scope.

(** [print(text, file=sys.stderr)]. *)
Definition print_stderr (text : string) : Py unit :=
  emit (StderrWrite (text ++ LF)).

(** [sys.exit(code)]. *)
Definition sys_exit {A} (code : Z) : Py A := raise (SystemExit code).

(** [subprocess.run(argv, check=True, capture_output=True)] in a world
    where the child meets [os]. *)
Definition subprocess_run (os : spawn_outcome) (argv : list string) : Py unit :=
  emit (SubprocessRun argv) ;;
  match os with
  | Exited rc descr =>
      if rc =? 0 then ret tt else raise (CalledProcessError rc argv descr)
  | LaunchFailed msg => raise (OSError msg)
  end.

(* ===================================================================== *)
(** ** [http.server.BaseHTTPRequestHandler]                               *)
(* ===================================================================== *)

(** The handler instance [self] once [parse_request] has accepted an
    HTTP/1.x request line: the attributes the library sets.  [rfile] is
    the unread rest of the connection, where a request body waits. *)
Record Handler : Type := {
  command : string;
  path : string;
  requestline : string;
  headers : list (string * string);
  rfile : string;
  client_address : string;
  log_date_time_string : string
}.

(** [str(code)] for an integer. *)
Definition str_Z (z : Z) : string := NilZero.string_of_int (Z.to_int z).

(** [BaseHTTPRequestHandler.log_message(format, *args)]: the definition
    of the base class writes one line on standard error,
    ["%s - - [%s] %s\n" % (address, time, format % args)]. *)
Definition log_message_default (self : Handler) (format : string)
    (args : list operand) : Py unit :=
  emit (StderrWriteMod ("%s - - [%s] %s" ++ LF)
          (Str (client_address self) :: Str (log_date_time_string self)
           :: Str format :: args)).

(** The methods of the base class that call [self.log_message] reach the
    definition of the class of [self]: the section variable is that
    method, as resolved on the instance. *)
Section BaseHTTPRequestHandler.
Variable self_log_message : Handler -> string -> list operand -> Py unit.

(** [log_request(code)]: [self.log_message('"%s" %s %s',
    self.requestline, str(code), str(size))] with [size='-']. *)
Definition log_request (self : Handler) (code : Z) : Py unit :=
  self_log_message self
    (String "034"%char ("%s" ++ String "034"%char " %s %s"))
    [Str (requestline self); Str (str_Z code); Str "-"].

(** [log_error(format, *args)] passes on to [log_message]. *)
Definition log_error (self : Handler) (format : string)
    (args : list operand) : Py unit :=
  self_log_message self format args.

(** [send_response(code)]: logs the request, then puts the status line
    and the two standard headers in the headers buffer. *)
Definition send_response (self : Handler) (code : Z) : Py unit :=
  log_request self code ;;
  emit (SendResponse code).

Definition send_header (self : Handler) (keyword value : string) : Py unit :=
  emit (SendHeader keyword value).

Definition end_headers (self : Handler) : Py unit :=
  emit EndHeaders.

(** [self.wfile.write(bytes)]. *)
Definition wfile_write (self : Handler) (bytes : string) : Py unit :=
  emit (WfileWrite (Data bytes)).

(** [send_error(code, message)] for a code from 200 on other than 204,
    205 and 304, with [message = fmt % args]: the error is logged, the
    response is started, the page is announced by [Content-Type] and
    [Content-Length], and it is written unless the request is a
    [HEAD]. *)
Definition send_error (self : Handler) (code : Z) (fmt : string)
    (args : list string) : Py unit :=
  let page := ErrorPage code fmt args in
  log_error self "code %d, message %s" [Int code; Mod fmt args] ;;
  send_response self code ;;
  send_header self "Connection" "close" ;;
  send_header self "Content-Type" "text/html;charset=utf-8" ;;
  emit (SendContentLength page) ;;
  end_headers self ;;
  if String.eqb (command self) "HEAD" then ret tt
  else emit (WfileWrite page).

End BaseHTTPRequestHandler.

(** A handler class: what a subclass of [BaseHTTPRequestHandler]
    defines.  [cls_getattr name] is [getattr(self, name)] for the request
    methods of the class, [None] where [hasattr(self, name)] is false;
    a method is given the child that its [subprocess.run] meets. *)
Record HandlerClass : Type := {
  cls_log_message : Handler -> string -> list operand -> Py unit;
  cls_getattr : string -> option (spawn_outcome -> Handler -> Py unit)
}.

(** [handle_one_request], from the dispatch on: [mname = 'do_' +
    self.command]; without such a method the answer is 501. *)
Definition handle_one_request (cls : HandlerClass) (os : spawn_outcome)
    (self : Handler) : Py unit :=
  let mname := "do_" ++ command self in
  match cls_getattr cls mname with
  | None =>
      send_error (cls_log_message cls) self 501 "Unsupported method (%r)"
        [command self]
  | Some method => method os self
  end.

(* ===================================================================== *)
(** ** [scripts/http-wake.py]                                             *)
(* ===================================================================== *)

(** [WakeHandler.log_message]: the body is [pass]. *)
Definition log_message (self : Handler) (format : string)
    (args : list operand) : Py unit :=
  ret tt.

(** The command line of the signal delivery. *)
Definition pkill_argv : list string := ["pkill"; "-USR1"; "touch-timeout"].

(** [WakeHandler.do_POST].  Strings are byte strings here, so that
    [error_msg.encode()] is [error_msg]. *)
Definition do_POST (os : spawn_outcome) (self : Handler) : Py unit :=
  if String.eqb (path self) "/wake" then
    try_except
      (subprocess_run os pkill_argv ;;
       send_response log_message self 200 ;;
       send_header self "Content-Type" "text/plain" ;;
       end_headers self ;;
       wfile_write self ("Display wake signal sent" ++ LF))
      (fun e =>
         match e with
         | CalledProcessError _ _ str_e =>
             Some (send_response log_message self 500 ;;
                   send_header self "Content-Type" "text/plain" ;;
                   end_headers self ;;
                   let error_msg := "Error sending signal: " ++ str_e ++ LF in
                   wfile_write self error_msg)
         | _ => None
         end)
  else
    send_response log_message self 404 ;;
    send_header self "Content-Type" "text/plain" ;;
    end_headers self ;;
    wfile_write self ("Not found. Use POST /wake" ++ LF).

(** [class WakeHandler(BaseHTTPRequestHandler)]: it defines [do_POST]
    and [log_message] and nothing else. *)
Definition WakeHandler : HandlerClass := {|
  cls_log_message := log_message;
  cls_getattr := fun name =>
    if String.eqb name "do_POST" then Some do_POST else None
|}.

(* ===================================================================== *)
(** ** [socketserver] and the script's main block                         *)
(* ===================================================================== *)

(** What reaches the listening server: a connection that carries one
    parsed request, together with the child that a [subprocess.run] made
    while it is served would meet; or the operator's interrupt, which
    Python raises as [KeyboardInterrupt] in the serving loop. *)
Inductive event : Type :=
| Connection (self : Handler) (os : spawn_outcome)
| Interrupt.

(** [shutdown_request(request)]: the connection is closed. *)
Definition shutdown_request : Py unit := emit ShutdownRequest.

(** [finish_request]: an instance of the handler class is made for the
    connection, and its constructor handles the one request (the
    protocol version of the class is HTTP/1.0: no keep-alive). *)
Definition finish_request (cls : HandlerClass) (self : Handler)
    (os : spawn_outcome) : Py unit :=
  handle_one_request cls os self.

Definition process_request (cls : HandlerClass) (self : Handler)
    (os : spawn_outcome) : Py unit :=
  finish_request cls self os ;;
  shutdown_request.

(** ['-'*40]. *)
Definition dashes : string := "----------------------------------------".

(** [handle_error]: the default prints a traceback and continues. *)
Definition handle_error (self : Handler) (e : exn) : Py unit :=
  print_stderr dashes ;;
  print_stderr ("Exception occurred during processing of request from "
                ++ client_address self) ;;
  emit (PrintExc e) ;;
  print_stderr dashes.

(** [_handle_request_noblock]: [except Exception] reports and goes on,
    the bare [except] closes the connection and raises again. *)
Definition handle_request_noblock (cls : HandlerClass) (self : Handler)
    (os : spawn_outcome) : Py unit :=
  try_except (process_request cls self os)
    (fun e =>
       if is_Exception e
       then Some (handle_error self e ;; shutdown_request)
       else Some (shutdown_request ;; raise e)).

(** [serve_forever] over the events that arrive, in their order.  When
    they are used up the loop is waiting in [select]. *)
Fixpoint serve_forever (cls : HandlerClass) (evs : list event) : Py unit :=
  match evs with
  | [] => fun tr => (Blocked, tr)
  | Connection self os :: rest =>
      handle_request_noblock cls self os ;;
      serve_forever cls rest
  | Interrupt :: _ => raise KeyboardInterrupt
  end.

(** Whether the port can be bound when the server is constructed. *)
Inductive bind_outcome : Type :=
| Bound
| BindFailed (str_e : string).

(** [HTTPServer((host, port), cls)]: [TCPServer.__init__] creates the
    socket, binds and listens; when that raises it closes the socket and
    raises again. *)
Definition HTTPServer (b : bind_outcome) (host : string) (port : Z) : Py unit :=
  emit SocketOpen ;;
  match b with
  | Bound => emit (SocketListen host port)
  | BindFailed str_e => emit SocketClose ;; raise (OSError str_e)
  end.

(** The block under [if __name__ == "__main__":]. *)
Definition main (b : bind_outcome) (evs : list event) : Py unit :=
  try_except
    (HTTPServer b "127.0.0.1" 8765 ;;
     print_stderr "touch-timeout HTTP wake endpoint listening on 127.0.0.1:8765" ;;
     serve_forever WakeHandler evs)
    (fun e =>
       match e with
       | OSError str_e =>
           Some (print_stderr ("Error starting server: " ++ str_e) ;;
                 print_stderr "Is another instance already running? Check: lsof -i :8765" ;;
                 sys_exit 1)
       | KeyboardInterrupt =>
           Some (print_stderr (LF ++ "Shutting down...") ;;
                 sys_exit 0)
       | _ => None
       end).

(** The exit status of the interpreter: 0 at the end of the script, the
    code of [SystemExit], 1 for any other exception that reaches the top;
    none while the script is still running. *)
Definition exit_status {A} (r : result A) : option Z :=
  match r with
  | Return _ => Some 0
  | Raise (SystemExit code) => Some code
  | Raise _ => Some 1
  | Blocked => None
  end.

(* ===================================================================== *)
(** ** Observations on traces                                             *)
(* ===================================================================== *)

(** The effects of a computation started with nothing behind it. *)
Definition effects {A} (m : Py A) : trace := snd (m []).
Definition outcome {A} (m : Py A) : result A := fst (m []).

(** The status codes, the headers and the body of the responses. *)
Definition statuses (tr : trace) : list Z :=
  flat_map (fun e => match e with SendResponse c => [c] | _ => [] end) tr.

Definition sent_headers (tr : trace) : list (string * string) :=
  flat_map (fun e => match e with SendHeader k v => [(k, v)] | _ => [] end) tr.

Definition body (tr : trace) : list chunk :=
  flat_map (fun e => match e with WfileWrite c => [c] | _ => [] end) tr.

(** The command lines given to [subprocess.run]. *)
Definition spawned (tr : trace) : list (list string) :=
  flat_map (fun e => match e with SubprocessRun a => [a] | _ => [] end) tr.

Definition is_stderr (e : io) : bool :=
  match e with
  | StderrWrite _ | StderrWriteMod _ _ | PrintExc _ => true
  | _ => false
  end.

(** What went to standard error. *)
Definition stderr (tr : trace) : list io := filter is_stderr tr.

Definition is_wire (e : io) : bool :=
  match e with
  | SendResponse _ | SendHeader _ _ | SendContentLength _ | EndHeaders
  | WfileWrite _ => true
  | _ => false
  end.

(** What went to the client. *)
Definition response (tr : trace) : trace := filter is_wire tr.

(** Whether a listening socket is open at the end of the trace. *)
Definition listening (tr : trace) : bool :=
  fold_left (fun l e => match e with
                        | SocketListen _ _ => true
                        | SocketClose => false
                        | _ => l
                        end) tr false.

(** A request as [curl -X command http://127.0.0.1:8765path] sends it,
    with [data] as its body. *)
Definition curl (command path data : string) : Handler := {|
  command := command;
  path := path;
  requestline := command ++ " " ++ path ++ " HTTP/1.1";
  headers := [("Host", "127.0.0.1:8765"); ("Accept", "*/*")];
  rfile := data;
  client_address := "('127.0.0.1', 40000)";
  log_date_time_string := "03/Nov/2026 10:00:00"
|}.

(** [self] with another request body. *)
Definition with_rfile (self : Handler) (data : string) : Handler := {|
  command := command self;
  path := path self;
  requestline := requestline self;
  headers := headers self;
  rfile := data;
  client_address := client_address self;
  log_date_time_string := log_date_time_string self
|}.

(** The events of a list of connections. *)
Definition connections (cs : list (Handler * spawn_outcome)) : list event :=
  map (fun c => Connection (fst c) (snd c)) cs.


(** The connections on which [do_POST] reaches [subprocess.run] and the
    child cannot be started. *)
Definition launch_fails (ev : event) : bool :=
  match ev with
  | Connection self (LaunchFailed _) =>
      String.eqb (command self) "POST" && String.eqb (path self) "/wake"
  | _ => false
  end.

(** Whether the operator's interrupt is among the events. *)
Definition interrupted (evs : list event) : bool :=
  existsb (fun ev => match ev with Interrupt => true | _ => false end) evs.

(** The connections that come before the first interrupt. *)
Fixpoint served (evs : list event) : list (Handler * spawn_outcome) :=
  match evs with
  | [] => []
  | Connection self os :: rest => (self, os) :: served rest
  | Interrupt :: _ => []
  end.

(** The requests that [do_POST] takes to the signal: the command is
    [POST] and the path is ["/wake"]. *)
Definition post_wake (self : Handler) : bool :=
  String.eqb (command self) "POST" && String.eqb (path self) "/wake".



(** How many connections were closed. *)
Definition closed (tr : trace) : nat :=
  List.length
    (filter (fun e => match e with ShutdownRequest => true | _ => false end) tr).

(** What happened to the listening socket. *)
Definition sockets (tr : trace) : trace :=
  filter (fun e => match e with
                   | SocketOpen | SocketListen _ _ | SocketClose => true
                   | _ => false
                   end) tr.

(* ===================================================================== *)
(** ** Computations only add to the trace                                 *)
(* ===================================================================== *)

(** [appends m]: [m] does not look at the effects behind it; it ends the
    same way after any past and adds the same effects to it. *)
Definition appends {A} (m : Py A) : Prop :=
  forall tr, m tr = (outcome m, (tr ++ effects m)%list).

Lemma appends_ret {A} (a : A) : appends (ret a).
Proof. intros tr. unfold ret, outcome, effects. simpl. now rewrite app_nil_r. Qed.

Lemma appends_raise {A} (e : exn) : appends (@raise A e).
Proof. intros tr. unfold raise, outcome, effects. simpl. now rewrite app_nil_r. Qed.

Lemma appends_emit (e : io) : appends (emit e).
Proof. intros tr. reflexivity. Qed.

Lemma appends_blocked {A} : appends (fun tr => (@Blocked A, tr)).
Proof. intros tr. unfold outcome, effects. simpl. now rewrite app_nil_r. Qed.

Lemma appends_bind {A B} (m : Py A) (k : A -> Py B) :
  appends m -> (forall a, appends (k a)) -> appends (bind m k).
Proof.
  intros Hm Hk tr. unfold outcome, effects, bind.
  rewrite (Hm tr), (Hm []). simpl.
  destruct (outcome m) as [a | e | ].
  - rewrite (Hk a (tr ++ effects m)%list), (Hk a (effects m)). simpl.
    now rewrite app_assoc.
  - reflexivity.
  - reflexivity.
Qed.

Lemma appends_try_except {A} (m : Py A) (handler : exn -> option (Py A)) :
  appends m ->
  (forall e h, handler e = Some h -> appends h) ->
  appends (try_except m handler).
Proof.
  intros Hm Hh tr. unfold outcome, effects, try_except.
  rewrite (Hm tr), (Hm []). simpl.
  destruct (outcome m) as [a | e | ]; try reflexivity.
  destruct (handler e) as [h | ] eqn:E; try reflexivity.
  rewrite (Hh e h E (tr ++ effects m)%list), (Hh e h E (effects m)). simpl.
  now rewrite app_assoc.
Qed.

Create HintDb py.
#[local] Hint Resolve appends_ret appends_raise appends_emit appends_blocked
  appends_bind appends_try_except : py.

Ltac appends_tac :=
  repeat lazymatch goal with
    | |- appends (bind _ _) => apply appends_bind; [ | intros ? ]
    | |- appends (ret _) => apply appends_ret
    | |- appends (raise _) => apply appends_raise
    | |- appends (emit _) => apply appends_emit
    | |- appends (fun tr => (Blocked, tr)) => apply appends_blocked
    | |- appends (if ?b then _ else _) => destruct b
    | |- appends _ => solve [ auto with py ]
    end.

Lemma appends_subprocess_run os argv : appends (subprocess_run os argv).
Proof.
  unfold subprocess_run. appends_tac.
  destruct os as [rc descr | msg]; appends_tac.
Qed.

Lemma appends_send_response self code : appends (send_response log_message self code).
Proof. unfold send_response, log_request, log_message. appends_tac. Qed.

Lemma appends_send_error self code fmt args :
  appends (send_error log_message self code fmt args).
Proof.
  unfold send_error, log_error, log_message, send_header, end_headers.
  pose proof (appends_send_response self code). appends_tac.
Qed.

#[local] Hint Resolve appends_subprocess_run appends_send_response
  appends_send_error : py.

Lemma appends_do_POST os self : appends (do_POST os self).
Proof.
  unfold do_POST, send_header, end_headers, wfile_write.
  destruct (String.eqb (path self) "/wake").
  - apply appends_try_except.
    + appends_tac.
    + intros e h He. destruct e; try discriminate.
      injection He as <-. appends_tac.
  - appends_tac.
Qed.

Lemma appends_handle_one_request os self :
  appends (handle_one_request WakeHandler os self).
Proof.
  unfold handle_one_request. simpl.
  destruct (String.eqb (command self) "POST").
  - apply appends_do_POST.
  - apply appends_send_error.
Qed.

#[local] Hint Resolve appends_do_POST appends_handle_one_request : py.

(* ===================================================================== *)
(** ** What the handler does, case by case                                *)
(* ===================================================================== *)

(** The dispatch reaches [do_POST] exactly for the command [POST]. *)
Lemma handle_one_request_POST os self :
  command self = "POST" ->
  handle_one_request WakeHandler os self = do_POST os self.
Proof.
  intros H. unfold handle_one_request. cbn. rewrite H. reflexivity.
Qed.

Lemma handle_one_request_unsupported os self :
  command self <> "POST" ->
  handle_one_request WakeHandler os self =
  send_error log_message self 501 "Unsupported method (%r)" [command self].
Proof.
  intros H. unfold handle_one_request. cbn.
  apply String.eqb_neq in H. rewrite H. reflexivity.
Qed.

Lemma do_POST_sent self descr :
  path self = "/wake" ->
  do_POST (Exited 0 descr) self [] =
  (Return tt,
   [SubprocessRun pkill_argv; SendResponse 200;
    SendHeader "Content-Type" "text/plain"; EndHeaders;
    WfileWrite (Data ("Display wake signal sent" ++ LF))]).
Proof. intros H. unfold do_POST. rewrite H. reflexivity. Qed.

Lemma do_POST_failed self rc descr :
  path self = "/wake" -> rc <> 0 ->
  do_POST (Exited rc descr) self [] =
  (Return tt,
   [SubprocessRun pkill_argv; SendResponse 500;
    SendHeader "Content-Type" "text/plain"; EndHeaders;
    WfileWrite (Data ("Error sending signal: " ++ descr ++ LF))]).
Proof.
  intros H Hrc. unfold do_POST. rewrite H. simpl String.eqb. cbv iota.
  unfold try_except, subprocess_run, bind, emit. simpl app.
  apply Z.eqb_neq in Hrc. rewrite Hrc. reflexivity.
Qed.

Lemma do_POST_not_launched self str_e :
  path self = "/wake" ->
  do_POST (LaunchFailed str_e) self [] =
  (Raise (OSError str_e), [SubprocessRun pkill_argv]).
Proof. intros H. unfold do_POST. rewrite H. reflexivity. Qed.

Lemma do_POST_not_found self os :
  path self <> "/wake" ->
  do_POST os self [] =
  (Return tt,
   [SendResponse 404; SendHeader "Content-Type" "text/plain"; EndHeaders;
    WfileWrite (Data ("Not found. Use POST /wake" ++ LF))]).
Proof.
  intros H. unfold do_POST. apply String.eqb_neq in H. rewrite H. reflexivity.
Qed.

Lemma send_error_501 self :
  send_error log_message self 501 "Unsupported method (%r)" [command self] [] =
  (Return tt,
   ([SendResponse 501; SendHeader "Connection" "close";
     SendHeader "Content-Type" "text/html;charset=utf-8";
     SendContentLength (ErrorPage 501 "Unsupported method (%r)" [command self]);
     EndHeaders]
    ++ (if String.eqb (command self) "HEAD" then []
        else [WfileWrite (ErrorPage 501 "Unsupported method (%r)" [command self])]))%list).
Proof.
  unfold send_error, bind. simpl.
  destruct (String.eqb (command self) "HEAD"); reflexivity.
Qed.

(** The handler ends normally, or with the [OSError] of a child that
    could not be started. *)
Lemma handle_one_request_outcome os self :
  outcome (handle_one_request WakeHandler os self) = Return tt \/
  exists str_e,
    os = LaunchFailed str_e /\
    outcome (handle_one_request WakeHandler os self) = Raise (OSError str_e).
Proof.
  unfold outcome.
  destruct (String.eqb (command self) "POST") eqn:Ec.
  - apply String.eqb_eq in Ec. rewrite (handle_one_request_POST os self Ec).
    destruct (String.eqb (path self) "/wake") eqn:Ep.
    + apply String.eqb_eq in Ep. destruct os as [rc descr | str_e].
      * left. destruct (Z.eq_dec rc 0) as [-> | Hrc].
        -- now rewrite do_POST_sent.
        -- now rewrite do_POST_failed.
      * right. exists str_e. now rewrite do_POST_not_launched.
    + apply String.eqb_neq in Ep. left. now rewrite do_POST_not_found.
  - apply String.eqb_neq in Ec. rewrite (handle_one_request_unsupported os self Ec).
    left. now rewrite send_error_501.
Qed.

(* ===================================================================== *)
(** ** The serving loop                                                   *)
(* ===================================================================== *)

Lemma appends_handle_error self e : appends (handle_error self e).
Proof. unfold handle_error, print_stderr. appends_tac. Qed.

Lemma appends_handle_request_noblock self os :
  appends (handle_request_noblock WakeHandler self os).
Proof.
  unfold handle_request_noblock, process_request, finish_request, shutdown_request.
  pose proof appends_handle_error.
  apply appends_try_except.
  - appends_tac.
  - intros e h He. destruct (is_Exception e); injection He as <-; appends_tac.
Qed.

(** Whatever the request and the child, the server comes back from the
    connection. *)
Lemma handle_request_noblock_returns self os :
  outcome (handle_request_noblock WakeHandler self os) = Return tt.
Proof.
  unfold outcome, handle_request_noblock, process_request, finish_request,
    try_except, bind.
  rewrite (appends_handle_one_request os self []).
  destruct (handle_one_request_outcome os self) as [-> | (str_e & _ & ->)];
    reflexivity.
Qed.

Lemma handle_request_noblock_run self os tr :
  handle_request_noblock WakeHandler self os tr =
  (Return tt, (tr ++ effects (handle_request_noblock WakeHandler self os))%list).
Proof.
  rewrite (appends_handle_request_noblock self os tr).
  now rewrite handle_request_noblock_returns.
Qed.

Lemma appends_serve_forever evs : appends (serve_forever WakeHandler evs).
Proof.
  pose proof appends_handle_request_noblock.
  induction evs as [ | [self os | ] rest IH]; simpl; appends_tac.
Qed.

Lemma serve_forever_connections cs tr :
  serve_forever WakeHandler (connections cs) tr =
  (Blocked,
   (tr ++ flat_map (fun c => effects (handle_request_noblock WakeHandler (fst c) (snd c)))
            cs)%list).
Proof.
  revert tr. induction cs as [ | [self os] cs IH]; intros tr; simpl.
  - now rewrite app_nil_r.
  - unfold bind. rewrite handle_request_noblock_run, IH. now rewrite app_assoc.
Qed.

Lemma serve_forever_interrupt pre post tr :
  exists tr',
    serve_forever WakeHandler (pre ++ Interrupt :: post) tr =
    (Raise KeyboardInterrupt, (tr ++ tr')%list).
Proof.
  revert tr. induction pre as [ | [self os | ] pre IH]; intros tr; simpl.
  - exists []. now rewrite app_nil_r.
  - unfold bind. rewrite handle_request_noblock_run.
    destruct (IH (tr ++ effects (handle_request_noblock WakeHandler self os))%list)
      as [tr' ->].
    eexists. now rewrite <- app_assoc.
  - exists []. now rewrite app_nil_r.
Qed.

(** The handler in closed form: what it leaves and how it ends, by the
    command, the path and the child. *)
Lemma handle_one_request_run os self :
  handle_one_request WakeHandler os self [] =
  if String.eqb (command self) "POST" then
    if String.eqb (path self) "/wake" then
      match os with
      | Exited rc descr =>
          if rc =? 0 then
            (Return tt,
             [SubprocessRun pkill_argv; SendResponse 200;
              SendHeader "Content-Type" "text/plain"; EndHeaders;
              WfileWrite (Data ("Display wake signal sent" ++ LF))])
          else
            (Return tt,
             [SubprocessRun pkill_argv; SendResponse 500;
              SendHeader "Content-Type" "text/plain"; EndHeaders;
              WfileWrite (Data ("Error sending signal: " ++ descr ++ LF))])
      | LaunchFailed str_e => (Raise (OSError str_e), [SubprocessRun pkill_argv])
      end
    else
      (Return tt,
       [SendResponse 404; SendHeader "Content-Type" "text/plain"; EndHeaders;
        WfileWrite (Data ("Not found. Use POST /wake" ++ LF))])
  else
    (Return tt,
     ([SendResponse 501; SendHeader "Connection" "close";
       SendHeader "Content-Type" "text/html;charset=utf-8";
       SendContentLength (ErrorPage 501 "Unsupported method (%r)" [command self]);
       EndHeaders]
      ++ (if String.eqb (command self) "HEAD" then []
          else [WfileWrite (ErrorPage 501 "Unsupported method (%r)" [command self])]))%list).
Proof.
  destruct (String.eqb (command self) "POST") eqn:Ec.
  - apply String.eqb_eq in Ec. rewrite (handle_one_request_POST os self Ec).
    destruct (String.eqb (path self) "/wake") eqn:Ep.
    + apply String.eqb_eq in Ep. destruct os as [rc descr | str_e].
      * destruct (rc =? 0) eqn:Erc.
        -- apply Z.eqb_eq in Erc. subst rc. now apply do_POST_sent.
        -- apply Z.eqb_neq in Erc. now apply do_POST_failed.
      * now apply do_POST_not_launched.
    + apply String.eqb_neq in Ep. now apply do_POST_not_found.
  - apply String.eqb_neq in Ec. rewrite (handle_one_request_unsupported os self Ec).
    apply send_error_501.
Qed.

(** What the server adds around the handler: the close of the
    connection, after the report of an exception when there is one. *)
Lemma handle_request_noblock_effects self os :
  effects (handle_request_noblock WakeHandler self os) =
  (effects (handle_one_request WakeHandler os self) ++
   match outcome (handle_one_request WakeHandler os self) with
   | Raise e =>
       [StderrWrite (dashes ++ LF);
        StderrWrite ("Exception occurred during processing of request from "
                     ++ client_address self ++ LF);
        PrintExc e;
        StderrWrite (dashes ++ LF);
        ShutdownRequest]
   | _ => [ShutdownRequest]
   end)%list.
Proof.
  unfold effects at 1.
  unfold handle_request_noblock, process_request, finish_request, try_except, bind.
  rewrite (appends_handle_one_request os self []).
  destruct (handle_one_request_outcome os self) as [-> | (str_e & _ & ->)].
  - reflexivity.
  - cbn. now rewrite <- !app_assoc.
Qed.

Lemma stderr_handle_one_request os self :
  stderr (effects (handle_one_request WakeHandler os self)) = [].
Proof.
  unfold effects. rewrite handle_one_request_run.
  destruct (String.eqb (command self) "POST");
    [ destruct (String.eqb (path self) "/wake");
      [ destruct os as [rc descr | str_e]; [ destruct (rc =? 0) | ] | ]
    | destruct (String.eqb (command self) "HEAD") ];
    reflexivity.
Qed.

Lemma response_handle_request_noblock self os :
  response (effects (handle_request_noblock WakeHandler self os)) =
  response (effects (handle_one_request WakeHandler os self)).
Proof.
  rewrite handle_request_noblock_effects. unfold response.
  rewrite filter_app.
  destruct (outcome (handle_one_request WakeHandler os self));
    simpl; now rewrite app_nil_r.
Qed.

Lemma stderr_handle_request_noblock self os :
  launch_fails (Connection self os) = false ->
  stderr (effects (handle_request_noblock WakeHandler self os)) = [].
Proof.
  intros H. rewrite handle_request_noblock_effects. unfold stderr.
  rewrite filter_app. fold (stderr (effects (handle_one_request WakeHandler os self))).
  rewrite stderr_handle_one_request. unfold outcome.
  rewrite handle_one_request_run. simpl in H.
  destruct (String.eqb (command self) "POST");
    [ destruct (String.eqb (path self) "/wake");
      [ destruct os as [rc descr | str_e]; [ destruct (rc =? 0) | discriminate H ] | ]
    | ];
    reflexivity.
Qed.

(** The loop ends in one way only: the operator's interrupt. *)
Lemma serve_forever_run evs tr :
  exists out,
    (serve_forever WakeHandler evs tr = (Blocked, (tr ++ out)%list) /\
     ~ In Interrupt evs \/
     serve_forever WakeHandler evs tr = (Raise KeyboardInterrupt, (tr ++ out)%list) /\
     In Interrupt evs) /\
    (Forall (fun ev => launch_fails ev = false) evs -> stderr out = []).
Proof.
  revert tr. induction evs as [ | [self os | ] rest IH]; intros tr.
  - exists []. rewrite app_nil_r. split; [ left; split; [ reflexivity | intros [] ] | reflexivity ].
  - simpl serve_forever. unfold bind. rewrite handle_request_noblock_run.
    destruct (IH (tr ++ effects (handle_request_noblock WakeHandler self os))%list)
      as (out & Hrun & Herr).
    exists (effects (handle_request_noblock WakeHandler self os) ++ out)%list.
    rewrite app_assoc. split.
    + destruct Hrun as [[-> Hn] | [-> Hi]].
      * left. split; [ reflexivity | ]. intros [H | H]; [ discriminate H | auto ].
      * right. split; [ reflexivity | now right ].
    + intros Hall. inversion Hall as [ | ? ? Hhd Htl ]; subst.
      unfold stderr in *. rewrite filter_app.
      fold (stderr (effects (handle_request_noblock WakeHandler self os))).
      rewrite (stderr_handle_request_noblock self os Hhd). simpl. auto.
  - exists []. rewrite app_nil_r. split.
    + right. split; [ reflexivity | now left ].
    + reflexivity.
Qed.

(* ===================================================================== *)
(** ** The main block                                                     *)
(* ===================================================================== *)

Lemma main_bind_failed str_e evs :
  main (BindFailed str_e) evs [] =
  (Raise (SystemExit 1),
   [SocketOpen; SocketClose;
    StderrWrite ("Error starting server: " ++ str_e ++ LF);
    StderrWrite ("Is another instance already running? Check: lsof -i :8765" ++ LF)]).
Proof. reflexivity. Qed.

Lemma main_bound_unfold evs :
  main Bound evs [] =
  match
    serve_forever WakeHandler evs
      [SocketOpen; SocketListen "127.0.0.1" 8765;
       StderrWrite ("touch-timeout HTTP wake endpoint listening on 127.0.0.1:8765" ++ LF)]
  with
  | (Raise KeyboardInterrupt, tr) =>
      (Raise (SystemExit 0), (tr ++ [StderrWrite (LF ++ "Shutting down..." ++ LF)])%list)
  | (Raise (OSError str_e), tr) =>
      (Raise (SystemExit 1),
       (tr ++ [StderrWrite ("Error starting server: " ++ str_e ++ LF);
               StderrWrite ("Is another instance already running? Check: lsof -i :8765"
                            ++ LF)])%list)
  | other => other
  end.
Proof.
  unfold main, try_except, bind.
  change (HTTPServer Bound "127.0.0.1" 8765 [])
    with (Return tt, [SocketOpen; SocketListen "127.0.0.1" 8765]).
  cbv iota beta.
  change (print_stderr "touch-timeout HTTP wake endpoint listening on 127.0.0.1:8765"
            [SocketOpen; SocketListen "127.0.0.1" 8765])
    with (Return tt,
          [SocketOpen; SocketListen "127.0.0.1" 8765;
           StderrWrite ("touch-timeout HTTP wake endpoint listening on 127.0.0.1:8765"
                        ++ LF)]).
  cbv iota beta.
  destruct (serve_forever WakeHandler evs _) as [[a | [rc c t | t | | c] | ] tr];
    try reflexivity.
  cbn. now rewrite <- app_assoc.
Qed.

(** With the port bound, the script prints the line of the start and
    serves; it is still serving when no interrupt came, and it has left
    with status 0 after the line of the shutdown when one came. *)
Lemma main_bound evs :
  exists out,
    (main Bound evs [] =
       (Blocked,
        ([SocketOpen; SocketListen "127.0.0.1" 8765;
          StderrWrite ("touch-timeout HTTP wake endpoint listening on 127.0.0.1:8765" ++ LF)]
         ++ out)%list) /\
     ~ In Interrupt evs \/
     main Bound evs [] =
       (Raise (SystemExit 0),
        ([SocketOpen; SocketListen "127.0.0.1" 8765;
          StderrWrite ("touch-timeout HTTP wake endpoint listening on 127.0.0.1:8765" ++ LF)]
         ++ out ++ [StderrWrite (LF ++ "Shutting down..." ++ LF)])%list) /\
     In Interrupt evs) /\
    (Forall (fun ev => launch_fails ev = false) evs -> stderr out = []).
Proof.
  destruct (serve_forever_run evs
    [SocketOpen; SocketListen "127.0.0.1" 8765;
     StderrWrite ("touch-timeout HTTP wake endpoint listening on 127.0.0.1:8765" ++ LF)])
    as (out & Hrun & Herr).
  exists out. split; [ | exact Herr ].
  rewrite main_bound_unfold.
  destruct Hrun as [[Hrun Hn] | [Hrun Hi]]; rewrite Hrun.
  - left. split; [ reflexivity | exact Hn ].
  - right. split; [ | exact Hi ]. now rewrite <- app_assoc.
Qed.

(* ===================================================================== *)
(** ** Properties of the script                                           *)
(* ===================================================================== *)

(** C1.  A [POST] whose path is exactly ["/wake"], when the command
    [pkill -USR1 touch-timeout] leaves with status 0, is answered with
    status 200, the header [Content-Type: text/plain] and the body
    ["Display wake signal sent\n"], and the handler ends normally. *)
Theorem post_wake_sent :
  forall (self : Handler) (descr : string),
    command self = "POST" ->
    path self = "/wake" ->
    let m := handle_one_request WakeHandler (Exited 0 descr) self in
    outcome m = Return tt /\
    statuses (effects m) = [200] /\
    sent_headers (effects m) = [("Content-Type", "text/plain")] /\
    body (effects m) = [Data ("Display wake signal sent" ++ LF)].
Proof.
  intros self descr Hc Hp m. subst m. unfold outcome, effects.
  rewrite handle_one_request_run, Hc, Hp. cbn. repeat split.
Qed.

Lemma post_wake_sent_witness :
  let m := handle_one_request WakeHandler (Exited 0 "") (curl "POST" "/wake" "") in
  outcome m = Return tt /\
  statuses (effects m) = [200] /\
  sent_headers (effects m) = [("Content-Type", "text/plain")] /\
  body (effects m) = [Data ("Display wake signal sent" ++ LF)].
Proof.
  apply (post_wake_sent (curl "POST" "/wake" "") ""); reflexivity.
Defined.

(** C2.  A [POST] to ["/wake"], when the command leaves with a status
    other than zero, is answered with status 500, the header
    [Content-Type: text/plain] and a body that starts with ["Error
    sending signal:"] and ends with a line feed. *)
Theorem post_wake_failed :
  forall (self : Handler) (rc : Z) (descr : string),
    command self = "POST" ->
    path self = "/wake" ->
    rc <> 0 ->
    let m := handle_one_request WakeHandler (Exited rc descr) self in
    outcome m = Return tt /\
    statuses (effects m) = [500] /\
    sent_headers (effects m) = [("Content-Type", "text/plain")] /\
    exists text : string,
      body (effects m) = [Data text] /\
      String.prefix "Error sending signal:" text = true /\
      exists details : string, text = details ++ LF.
Proof.
  intros self rc descr Hc Hp Hrc m. subst m. unfold outcome, effects.
  rewrite handle_one_request_run, Hc, Hp. cbn [String.eqb Ascii.eqb Bool.eqb].
  apply Z.eqb_neq in Hrc. rewrite Hrc. cbn.
  repeat split.
  exists ("Error sending signal: " ++ descr ++ LF).
  repeat split.
  exists ("Error sending signal: " ++ descr). cbn.
  repeat f_equal. 
Qed.

Lemma post_wake_failed_witness :
  let m := handle_one_request WakeHandler
             (Exited 1 "Command '['pkill', '-USR1', 'touch-timeout']' returned non-zero exit status 1.")
             (curl "POST" "/wake" "") in
  outcome m = Return tt /\
  statuses (effects m) = [500] /\
  sent_headers (effects m) = [("Content-Type", "text/plain")] /\
  exists text : string,
    body (effects m) = [Data text] /\
    String.prefix "Error sending signal:" text = true /\
    exists details : string, text = details ++ LF.
Proof.
  apply (post_wake_failed (curl "POST" "/wake" "") 1); [ reflexivity | reflexivity | lia ].
Defined.

(** C3, as the specification has it, fails: a [GET] of ["/wake"] is a
    request whose method is not [POST], and its answer is not a 404 with
    the body of [do_POST]; the base class answers it with 501. *)
Lemma get_wake_is_not_404 :
  let self := curl "GET" "/wake" "" in
  let m := handle_one_request WakeHandler (Exited 0 "") self in
  (command self <> "POST" \/ path self <> "/wake") /\
  ~ (statuses (effects m) = [404] /\
     body (effects m) = [Data ("Not found. Use POST /wake" ++ LF)]).
Proof.
  cbv zeta. split.
  - left. discriminate.
  - intros [H _]. vm_compute in H. discriminate H.
Qed.

(** C3, amended.  A [POST] whose path is not ["/wake"] is answered with
    status 404, [Content-Type: text/plain] and the body ["Not found. Use
    POST /wake\n"].  A request whose method is not [POST] does not reach
    the script: the class has no method for it, and the base class
    answers with status 501 and its own error page.  Neither starts a
    child. *)
Theorem other_requests :
  forall (self : Handler) (os : spawn_outcome),
    let m := handle_one_request WakeHandler os self in
    (command self = "POST" -> path self <> "/wake" ->
     outcome m = Return tt /\
     statuses (effects m) = [404] /\
     sent_headers (effects m) = [("Content-Type", "text/plain")] /\
     body (effects m) = [Data ("Not found. Use POST /wake" ++ LF)] /\
     spawned (effects m) = []) /\
    (command self <> "POST" ->
     outcome m = Return tt /\
     statuses (effects m) = [501] /\
     (forall c, In c (body (effects m)) ->
                c = ErrorPage 501 "Unsupported method (%r)" [command self]) /\
     spawned (effects m) = []).
Proof.
  intros self os m. subst m. unfold outcome, effects.
  rewrite handle_one_request_run. split.
  - intros Hc Hp. apply String.eqb_neq in Hp. rewrite Hc, Hp. cbn. repeat split.
  - intros Hc. apply String.eqb_neq in Hc. rewrite Hc.
    destruct (String.eqb (command self) "HEAD"); cbn; repeat split;
      intros c Hin; cbn in Hin; intuition.
Qed.

Lemma other_requests_witness :
  (let m := handle_one_request WakeHandler (Exited 0 "") (curl "POST" "/sleep" "") in
   outcome m = Return tt /\
   statuses (effects m) = [404] /\
   sent_headers (effects m) = [("Content-Type", "text/plain")] /\
   body (effects m) = [Data ("Not found. Use POST /wake" ++ LF)] /\
   spawned (effects m) = []) /\
  (let m := handle_one_request WakeHandler (Exited 0 "") (curl "GET" "/wake" "") in
   outcome m = Return tt /\
   statuses (effects m) = [501] /\
   (forall c, In c (body (effects m)) ->
              c = ErrorPage 501 "Unsupported method (%r)" ["GET"]) /\
   spawned (effects m) = []).
Proof.
  split.
  - apply (other_requests (curl "POST" "/sleep" "") (Exited 0 ""));
      [ reflexivity | discriminate ].
  - apply (other_requests (curl "GET" "/wake" "") (Exited 0 "")). discriminate.
Defined.


(** C5.  When the port cannot be bound, the script writes on standard
    error the error and the hint at its likely cause (another instance,
    with the command that shows it), leaves with status 1, and leaves no
    listening socket: the one it opened is closed, and nothing is
    served. *)
Theorem bind_failure_is_fatal :
  forall (str_e : string) (evs : list event),
    let m := main (BindFailed str_e) evs in
    exit_status (outcome m) = Some 1 /\
    stderr (effects m) =
      [StderrWrite ("Error starting server: " ++ str_e ++ LF);
       StderrWrite ("Is another instance already running? Check: lsof -i :8765" ++ LF)] /\
    listening (effects m) = false /\
    response (effects m) = [] /\
    spawned (effects m) = [].
Proof.
  intros str_e evs m. subst m. unfold outcome, effects.
  rewrite main_bind_failed. repeat split.
Qed.

(** C6.  When the operator's interrupt comes while the server serves,
    whatever came before it, the script writes the line of the shutdown
    as its last diagnostic and leaves with status 0. *)
Theorem interrupt_is_clean_shutdown :
  forall pre post : list event,
    let m := main Bound (pre ++ Interrupt :: post) in
    exit_status (outcome m) = Some 0 /\
    exists before,
      stderr (effects m) = (before ++ [StderrWrite (LF ++ "Shutting down..." ++ LF)])%list.
Proof.
  intros pre post m. subst m. unfold outcome, effects.
  destruct (main_bound (pre ++ Interrupt :: post)) as (out & [[_ Hn] | [-> _]] & _).
  - exfalso. apply Hn. apply in_or_app. right. now left.
  - split; [ reflexivity | ].
    cbn [snd]. unfold stderr. rewrite !filter_app.
    eexists. rewrite app_assoc. reflexivity.
Qed.

(** The line that [log_message] of the base class would write for a
    response, and the silence of the class of the script. *)
Example send_response_logs_by_default :
  stderr (effects (send_response log_message_default (curl "POST" "/wake" "") 200)) =
  [StderrWriteMod ("%s - - [%s] %s" ++ LF)
     [Str "('127.0.0.1', 40000)"; Str "03/Nov/2026 10:00:00";
      Str (String "034"%char ("%s" ++ String "034"%char " %s %s"));
      Str "POST /wake HTTP/1.1"; Str "200"; Str "-"]].
Proof. reflexivity. Qed.

Example send_response_is_silent :
  stderr (effects (send_response log_message (curl "POST" "/wake" "") 200)) = [].
Proof. reflexivity. Qed.






(** C8.  The answer to a request is its own.  After any connections,
    whatever happened on them, the next one adds to what the clients have
    received exactly the answer that the handler gives to its request
    alone; two requests with the same command and path whose children
    meet the same fate get the same answer after any two pasts; and the
    handler does not look at the effects behind it. *)
Theorem response_is_own :
  forall (cs cs' : list (Handler * spawn_outcome)) (self self' : Handler)
         (os : spawn_outcome),
    command self = command self' ->
    path self = path self' ->
    let own := response (effects (handle_one_request WakeHandler os self)) in
    response (effects (serve_forever WakeHandler (connections (cs ++ [(self, os)])))) =
      (response (effects (serve_forever WakeHandler (connections cs))) ++ own)%list /\
    response (effects (serve_forever WakeHandler (connections (cs' ++ [(self', os)])))) =
      (response (effects (serve_forever WakeHandler (connections cs'))) ++ own)%list /\
    appends (handle_one_request WakeHandler os self).
Proof.
  intros cs cs' self self' os Hc Hp own.
  assert (Hown : response (effects (handle_one_request WakeHandler os self')) = own).
  { subst own. unfold effects. rewrite !handle_one_request_run, <- Hc, <- Hp. reflexivity. }
  assert (Hstep : forall l s,
            response (effects (serve_forever WakeHandler (connections (l ++ [(s, os)])))) =
            (response (effects (serve_forever WakeHandler (connections l)))
             ++ response (effects (handle_one_request WakeHandler os s)))%list).
  { intros l s. unfold effects at 1 2. rewrite !serve_forever_connections. cbn [snd app].
    rewrite flat_map_app. unfold response at 1 2. rewrite filter_app. f_equal.
    cbn [flat_map fst snd]. rewrite app_nil_r. apply response_handle_request_noblock. }
  split; [ apply Hstep | split ].
  - rewrite Hstep. now rewrite Hown.
  - apply appends_handle_one_request.
Qed.

Lemma response_is_own_witness :
  let first := curl "POST" "/wake" "" in
  let again := curl "POST" "/wake" "wake up" in
  let failed := Exited 1 "no process found" in
  let own := response (effects (handle_one_request WakeHandler (Exited 0 "") first)) in
  response (effects (serve_forever WakeHandler
                       (connections ([(first, failed)] ++ [(first, Exited 0 "")])))) =
    (response (effects (serve_forever WakeHandler (connections [(first, failed)]))) ++ own)%list /\
  response (effects (serve_forever WakeHandler
                       (connections ([] ++ [(again, Exited 0 "")])))) =
    (response (effects (serve_forever WakeHandler (connections []))) ++ own)%list /\
  appends (handle_one_request WakeHandler (Exited 0 "") first).
Proof.
  cbv zeta.
  apply (response_is_own [(curl "POST" "/wake" "", Exited 1 "no process found")] []
           (curl "POST" "/wake" "") (curl "POST" "/wake" "wake up") (Exited 0 ""));
    reflexivity.
Defined.

(** C9.  The handler reads neither the body nor a query.  A request with
    another body is handled in the same way, effect for effect; and the
    target is compared with ["/wake"] as it stands: a [POST] of
    ["/wake?..."] is answered with 404 and starts no child. *)
Theorem body_and_query_are_not_read :
  forall (self : Handler) (os : spawn_outcome) (data query : string),
    (forall tr,
        handle_one_request WakeHandler os (with_rfile self data) tr =
        handle_one_request WakeHandler os self tr) /\
    (command self = "POST" ->
     path self = "/wake?" ++ query ->
     statuses (effects (handle_one_request WakeHandler os self)) = [404] /\
     spawned (effects (handle_one_request WakeHandler os self)) = []).
Proof.
  intros self os data query. split.
  - intros tr.
    rewrite (appends_handle_one_request os (with_rfile self data) tr),
      (appends_handle_one_request os self tr).
    unfold outcome, effects. rewrite !handle_one_request_run. reflexivity.
  - intros Hc Hp. unfold effects. rewrite handle_one_request_run, Hc, Hp.
    cbn. split; reflexivity.
Qed.

Lemma body_and_query_are_not_read_witness :
  let self := curl "POST" "/wake?force=1" "" in
  (forall tr,
      handle_one_request WakeHandler (Exited 0 "") (with_rfile self "force=1") tr =
      handle_one_request WakeHandler (Exited 0 "") self tr) /\
  statuses (effects (handle_one_request WakeHandler (Exited 0 "") self)) = [404] /\
  spawned (effects (handle_one_request WakeHandler (Exited 0 "") self)) = [].
Proof.
  cbv zeta.
  destruct (body_and_query_are_not_read (curl "POST" "/wake?force=1" "") (Exited 0 "")
              "force=1" "force=1") as [Hbody Hquery].
  split; [ exact Hbody | apply Hquery; reflexivity ].
Defined.

(** C10.  The handler calls [subprocess.run] once when the request is a
    [POST] whose path is exactly ["/wake"], with the arguments [pkill
    -USR1 touch-timeout], as its first effect: everything that goes to
    the client comes after it.  For any other request it does not call
    it. *)
Theorem signal_is_sent_once_for_post_wake :
  forall (self : Handler) (os : spawn_outcome),
    let tr := effects (handle_one_request WakeHandler os self) in
    if String.eqb (command self) "POST" && String.eqb (path self) "/wake"
    then spawned tr = [["pkill"; "-USR1"; "touch-timeout"]] /\
         exists rest,
           tr = SubprocessRun ["pkill"; "-USR1"; "touch-timeout"] :: rest /\
           spawned rest = [] /\
           response tr = response rest
    else spawned tr = [].
Proof.
  intros self os tr. subst tr. unfold effects. rewrite handle_one_request_run.
  destruct (String.eqb (command self) "POST"); cbn [andb].
  - destruct (String.eqb (path self) "/wake").
    + destruct os as [rc descr | str_e]; [ destruct (rc =? 0) | ];
        (split; [ reflexivity | eexists; repeat split ]).
    + reflexivity.
  - destruct (String.eqb (command self) "HEAD"); reflexivity.
Qed.

(* ===================================================================== *)
(** ** Further properties: a whole run of the script                      *)
(* ===================================================================== *)

Lemma interrupted_app pre post :
  interrupted (pre ++ Interrupt :: post) = true.
Proof.
  unfold interrupted. rewrite existsb_app. cbn. now rewrite orb_true_r.
Qed.

Lemma served_app pre post :
  served (pre ++ Interrupt :: post) = served pre.
Proof.
  induction pre as [ | [self os | ] pre IH]; cbn; [ reflexivity | now rewrite IH | reflexivity ].
Qed.

(** The loop in closed form: it serves the connections that come before
    the first interrupt, one after the other, and then raises
    [KeyboardInterrupt] or waits. *)
Lemma serve_forever_served evs tr :
  serve_forever WakeHandler evs tr =
  (if interrupted evs then Raise KeyboardInterrupt else Blocked,
   (tr ++ flat_map (fun c => effects (handle_request_noblock WakeHandler (fst c) (snd c)))
            (served evs))%list).
Proof.
  revert tr. induction evs as [ | [self os | ] rest IH]; intros tr.
  - cbn. now rewrite app_nil_r.
  - cbn [serve_forever served flat_map fst snd]. unfold bind.
    rewrite handle_request_noblock_run, IH, app_assoc. reflexivity.
  - cbn. now rewrite app_nil_r.
Qed.

(** The main block in closed form, with the port bound. *)
Lemma main_bound_served evs :
  main Bound evs [] =
  (if interrupted evs then Raise (SystemExit 0) else Blocked,
   ([SocketOpen; SocketListen "127.0.0.1" 8765;
     StderrWrite ("touch-timeout HTTP wake endpoint listening on 127.0.0.1:8765" ++ LF)]
    ++ flat_map (fun c => effects (handle_request_noblock WakeHandler (fst c) (snd c)))
         (served evs)
    ++ (if interrupted evs then [StderrWrite (LF ++ "Shutting down..." ++ LF)] else []))%list).
Proof.
  rewrite main_bound_unfold, serve_forever_served.
  destruct (interrupted evs).
  - now rewrite <- app_assoc.
  - now rewrite app_nil_r.
Qed.

(** Case analysis on everything the handler looks at. *)
Ltac handler_cases self os :=
  unfold effects, outcome; rewrite ?handle_one_request_run;
  destruct (String.eqb (command self) "POST") eqn:Ecommand;
  [ destruct (String.eqb (path self) "/wake") eqn:Epath;
    [ destruct os as [rc descr | str_e]; [ destruct (rc =? 0) eqn:Erc | ] | ]
  | destruct (String.eqb (command self) "HEAD") eqn:Ehead ].

Lemma spawned_handle_request_noblock self os :
  spawned (effects (handle_request_noblock WakeHandler self os)) =
  if post_wake self then [pkill_argv] else [].
Proof.
  rewrite handle_request_noblock_effects. unfold post_wake.
  handler_cases self os; reflexivity.
Qed.

Lemma closed_handle_request_noblock self os :
  closed (effects (handle_request_noblock WakeHandler self os)) = 1%nat.
Proof.
  rewrite handle_request_noblock_effects.
  handler_cases self os; reflexivity.
Qed.

Lemma sockets_handle_request_noblock self os :
  sockets (effects (handle_request_noblock WakeHandler self os)) = [].
Proof.
  rewrite handle_request_noblock_effects.
  handler_cases self os; reflexivity.
Qed.

Lemma filter_flat_map {A} (f : io -> bool) (g : A -> trace) (l : list A) :
  filter f (flat_map g l) = flat_map (fun x => filter f (g x)) l.
Proof.
  induction l as [ | x l IH]; cbn; [ reflexivity | ].
  now rewrite filter_app, IH.
Qed.

Lemma spawned_app (tr tr' : trace) :
  spawned (tr ++ tr')%list = (spawned tr ++ spawned tr')%list.
Proof. apply flat_map_app. Qed.

Lemma spawned_served cs :
  spawned (flat_map (fun c => effects (handle_request_noblock WakeHandler (fst c) (snd c))) cs)
  = map (fun _ => pkill_argv) (filter (fun c => post_wake (fst c)) cs).
Proof.
  induction cs as [ | [self os] cs IH]; cbn [flat_map filter fst snd]; [ reflexivity | ].
  rewrite spawned_app, IH, spawned_handle_request_noblock.
  destruct (post_wake self); reflexivity.
Qed.

Lemma flat_map_nil_on {A} (g : A -> trace) (l : list A) :
  (forall x, In x l -> g x = []) -> flat_map g l = [].
Proof.
  intros H. induction l as [ | x l IH]; cbn; [ reflexivity | ].
  rewrite (H x (or_introl eq_refl)), IH; [ reflexivity | ].
  intros y Hy. apply H. now right.
Qed.

Lemma listening_sockets tr : listening tr = listening (sockets tr).
Proof.
  unfold listening.
  set (step := fun (l : bool) (e : io) => _).
  generalize false.
  induction tr as [ | e tr IH]; intros l; [ reflexivity | ].
  destruct e; cbn; apply IH.
Qed.


(** X1.  The exit status of the script: 1 when the port cannot be bound;
    with the port bound, 0 once the operator's interrupt has come, and
    none, the script still serving, as long as it has not.  No request
    and no fate of a child makes the script leave. *)
Theorem exit_status_of_the_script :
  forall (b : bind_outcome) (evs : list event),
    exit_status (outcome (main b evs)) =
    match b with
    | BindFailed _ => Some 1
    | Bound => if interrupted evs then Some 0 else None
    end.
Proof.
  intros [ | str_e] evs; unfold outcome.
  - rewrite main_bound_served. now destruct (interrupted evs).
  - now rewrite main_bind_failed.
Qed.

(** X2.  Nothing is served after the interrupt: what the script does is
    the same whatever events follow the first interrupt. *)
Theorem nothing_is_served_after_the_interrupt :
  forall pre post post' : list event,
    main Bound (pre ++ Interrupt :: post) [] =
    main Bound (pre ++ Interrupt :: post') [].
Proof.
  intros pre post post'.
  now rewrite !main_bound_served, !interrupted_app, !served_app.
Qed.





(** X5.  A 200 is never sent in vain: when the status of the answer is
    200, the request was a [POST] of exactly ["/wake"], [pkill -USR1
    touch-timeout] was run, once, and it left with status 0. *)
Theorem status_200_means_signal_sent :
  forall (self : Handler) (os : spawn_outcome),
    In 200 (statuses (effects (handle_one_request WakeHandler os self))) ->
    command self = "POST" /\
    path self = "/wake" /\
    (exists descr, os = Exited 0 descr) /\
    spawned (effects (handle_one_request WakeHandler os self)) =
      [["pkill"; "-USR1"; "touch-timeout"]].
Proof.
  intros self os. handler_cases self os; cbn; intros Hin;
    try (repeat destruct Hin as [Hin | Hin]; try discriminate Hin; contradiction).
  apply String.eqb_eq in Ecommand, Epath. apply Z.eqb_eq in Erc. subst rc.
  repeat split; eauto.
Qed.

Lemma status_200_means_signal_sent_witness :
  let self := curl "POST" "/wake" "" in
  command self = "POST" /\
  path self = "/wake" /\
  (exists descr, Exited 0 "" = Exited 0 descr) /\
  spawned (effects (handle_one_request WakeHandler (Exited 0 "") self)) =
    [["pkill"; "-USR1"; "touch-timeout"]].
Proof.
  cbv zeta.
  apply (status_200_means_signal_sent (curl "POST" "/wake" "") (Exited 0 "")).
  vm_compute. left. reflexivity.
Defined.

(** X6.  A 500 comes from a failed command only, and tells why: when the
    status of the answer is 500, the request was a [POST] of exactly
    ["/wake"], the command left with a status other than zero, and the
    body is ["Error sending signal: "], the text of the
    [CalledProcessError] and a line feed. *)
Theorem status_500_reports_the_failure :
  forall (self : Handler) (os : spawn_outcome),
    In 500 (statuses (effects (handle_one_request WakeHandler os self))) ->
    command self = "POST" /\
    path self = "/wake" /\
    exists rc descr,
      os = Exited rc descr /\
      rc <> 0 /\
      body (effects (handle_one_request WakeHandler os self)) =
        [Data ("Error sending signal: " ++ descr ++ LF)].
Proof.
  intros self os. handler_cases self os; cbn; intros Hin;
    try (repeat destruct Hin as [Hin | Hin]; try discriminate Hin; contradiction).
  apply String.eqb_eq in Ecommand, Epath. apply Z.eqb_neq in Erc.
  repeat split; eauto.
Qed.

Lemma status_500_reports_the_failure_witness :
  let self := curl "POST" "/wake" "" in
  command self = "POST" /\
  path self = "/wake" /\
  exists rc descr,
    Exited 1 "no process found" = Exited rc descr /\
    rc <> 0 /\
    body (effects (handle_one_request WakeHandler (Exited 1 "no process found") self)) =
      [Data ("Error sending signal: " ++ descr ++ LF)].
Proof.
  cbv zeta.
  apply (status_500_reports_the_failure (curl "POST" "/wake" "")
           (Exited 1 "no process found")).
  vm_compute. left. reflexivity.
Defined.


(** X8.  One signal for each [POST] to ["/wake"], and no other: over a
    whole run, [subprocess.run] is called with [pkill -USR1
    touch-timeout] once for each such request that arrived before the
    interrupt, whatever became of the earlier calls (nothing is tried
    again), and never for any other request. *)
Theorem one_signal_for_each_post_wake :
  forall evs : list event,
    spawned (effects (main Bound evs)) =
    map (fun _ => ["pkill"; "-USR1"; "touch-timeout"])
        (filter (fun c => post_wake (fst c)) (served evs)).
Proof.
  intros evs. unfold effects. rewrite main_bound_served. cbn [snd].
  rewrite !spawned_app, spawned_served.
  destruct (interrupted evs); cbn; now rewrite app_nil_r.
Qed.

Lemma closed_served cs :
  closed (flat_map (fun c => effects (handle_request_noblock WakeHandler (fst c) (snd c))) cs)
  = List.length cs.
Proof.
  induction cs as [ | [self os] cs IH]; cbn [flat_map fst snd]; [ reflexivity | ].
  unfold closed in *. rewrite filter_app, length_app, IH.
  fold (closed (effects (handle_request_noblock WakeHandler self os))).
  now rewrite closed_handle_request_noblock.
Qed.

(** X9.  Every connection that is served is closed, once: after a
    normal answer as well as after an exception of the handler. *)
Theorem every_connection_is_closed :
  forall evs : list event,
    closed (effects (main Bound evs)) = List.length (served evs).
Proof.
  intros evs. unfold effects. rewrite main_bound_served. cbn [snd].
  unfold closed. rewrite !filter_app, !length_app.
  fold (closed (flat_map
    (fun c => effects (handle_request_noblock WakeHandler (fst c) (snd c))) (served evs))).
  rewrite closed_served. destruct (interrupted evs); cbn; lia.
Qed.

(** X10.  A [HEAD] request, whatever its path, is answered by the base
    class with status 501 and [Connection: close], without a body, and
    starts no child. *)
Theorem head_is_answered_without_body :
  forall (self : Handler) (os : spawn_outcome),
    command self = "HEAD" ->
    let m := handle_one_request WakeHandler os self in
    outcome m = Return tt /\
    statuses (effects m) = [501] /\
    In ("Connection", "close") (sent_headers (effects m)) /\
    body (effects m) = [] /\
    spawned (effects m) = [].
Proof.
  intros self os Hc m. subst m. unfold outcome, effects.
  rewrite handle_one_request_run, Hc. cbn. intuition.
Qed.

Lemma head_is_answered_without_body_witness :
  let m := handle_one_request WakeHandler (Exited 0 "") (curl "HEAD" "/wake" "") in
  outcome m = Return tt /\
  statuses (effects m) = [501] /\
  In ("Connection", "close") (sent_headers (effects m)) /\
  body (effects m) = [] /\
  spawned (effects m) = [].
Proof.
  apply (head_is_answered_without_body (curl "HEAD" "/wake" "") (Exited 0 ""));
    reflexivity.
Defined.

(** X11.  With the port bound, the script opens one socket, listens on
    127.0.0.1 port 8765 and nowhere else, and neither closes the socket
    nor opens another while it serves, whatever arrives. *)
Theorem listens_on_loopback_only :
  forall evs : list event,
    sockets (effects (main Bound evs)) = [SocketOpen; SocketListen "127.0.0.1" 8765] /\
    listening (effects (main Bound evs)) = true.
Proof.
  intros evs.
  assert (H : sockets (effects (main Bound evs)) =
              [SocketOpen; SocketListen "127.0.0.1" 8765]).
  { unfold effects. rewrite main_bound_served. cbn [snd].
    unfold sockets. rewrite !filter_app, filter_flat_map.
    rewrite flat_map_nil_on.
    - now destruct (interrupted evs).
    - intros [self os] _. apply sockets_handle_request_noblock. }
  split; [ exact H | ]. now rewrite listening_sockets, H.
Qed.
